(** * decltype.cpp: a model of the type-deduction demonstrations

    The program under study, [5-decltype/decltype.cpp], declares local
    bindings whose types are deduced with [decltype], [auto] and
    [decltype(auto)], prints the [typeid] name of each binding and returns 0.

    The statements of every routine are embedded as computations in a
    state-and-failure monad over an explicit memory (two objects of static
    storage duration, a stack of automatic objects, the characters written to
    [std::cout]).  Expressions keep their syntax, because [decltype]
    distinguishes [x] from [(x)]; their static type, their value category and
    their evaluation are functions on that syntax. *)

From Stdlib Require Import ZArith Floats Uint63 Lia Ascii.
From stdpp Require Import base option list strings.

Local Open Scope string_scope.
Local Open Scope Z_scope.
Local Open Scope list_scope.

(** ** Types and value categories *)

(** The object types that occur in the translation unit. *)
Inductive obj_type : Type :=
| Tint                     (* int *)
| Tdouble                  (* double *)
| Tvector_int              (* std::vector<int> *)
| Tvector_int_iterator.    (* std::vector<int>::iterator *)

(** A type as [decltype] yields it: an object type [T], [T&] or [T&&]. *)
Inductive cpp_type : Type :=
| Tval (T : obj_type)      (* T   *)
| Tlref (T : obj_type)     (* T&  *)
| Trref (T : obj_type).    (* T&& *)

Inductive value_category : Type := lvalue | xvalue | prvalue.

#[global] Instance obj_type_eq_dec : EqDecision obj_type.
Proof. solve_decision. Defined.

#[global] Instance cpp_type_eq_dec : EqDecision cpp_type.
Proof. solve_decision. Defined.

#[global] Instance value_category_eq_dec : EqDecision value_category.
Proof. solve_decision. Defined.

(** std::remove_reference *)
Definition remove_reference (t : cpp_type) : obj_type :=
  match t with Tval T | Tlref T | Trref T => T end.

Definition is_reference (t : cpp_type) : bool :=
  match t with Tval _ => false | Tlref _ | Trref _ => true end.

(** ** Memory *)

(** Where an object lives: the file-scope [global_var], the function-local
    static [val] of [get_rvalue], or a slot of the stack of automatic
    objects. *)
Inductive loc : Type :=
| Lglobal_var
| Lget_rvalue_val
| Lstack (n : nat).

#[global] Instance loc_eq_dec : EqDecision loc.
Proof. solve_decision. Defined.

(** [int] is a 32-bit two's complement integer, carried as a [Z] inside
    [int_min .. int_max]; [double] is a binary64 float. *)
Definition int_min : Z := - 2 ^ 31.
Definition int_max : Z := 2 ^ 31 - 1.
Definition in_int (z : Z) : bool :=
  ((int_min <=? z)%Z && (z <=? int_max)%Z)%bool.

Inductive value : Type :=
| Vint (z : Z)
| Vdouble (f : float)
| Vvector (elems : list Z)
| Viterator (vec : loc) (pos : nat).

Definition value_type (v : value) : obj_type :=
  match v with
  | Vint _ => Tint
  | Vdouble _ => Tdouble
  | Vvector _ => Tvector_int
  | Viterator _ _ => Tvector_int_iterator
  end.

Record state : Type := mkState {
  mem_global_var : Z;          (* int global_var *)
  mem_get_rvalue_val : Z;      (* static int val, inside get_rvalue *)
  stack : list value;          (* automatic objects, oldest first *)
  cout : string                (* characters written to std::cout *)
}.

(** Static initialisation: [int global_var = 10;] and [static int val = 42;]
    are both constant-initialised before [main] starts. *)
Definition initial_state : state :=
  {| mem_global_var := 10; mem_get_rvalue_val := 42; stack := []; cout := "" |}.

(** ** The monad of statements: state passing, [None] for a failure *)

Definition M (A : Type) : Type := state → option (A * state).

#[global] Instance M_ret : MRet M := λ A a s, Some (a, s).
#[global] Instance M_bind : MBind M := λ A B f m s,
  match m s with
  | Some (a, s') => f a s'
  | None => None
  end.

Definition fail {A : Type} : M A := λ _, None.

(** Reading an object.  A stack slot that is not live cannot be read. *)
Definition load (l : loc) : M value := λ s,
  match l with
  | Lglobal_var => Some (Vint (mem_global_var s), s)
  | Lget_rvalue_val => Some (Vint (mem_get_rvalue_val s), s)
  | Lstack n => v ← stack s !! n; Some (v, s)
  end.

(** Writing an object; the two static objects are [int]s, a stack slot keeps
    the type it was created with. *)
Definition store (l : loc) (v : value) : M unit := λ s,
  match l with
  | Lglobal_var =>
      match v with
      | Vint z =>
          Some (tt, {| mem_global_var := z;
                       mem_get_rvalue_val := mem_get_rvalue_val s;
                       stack := stack s; cout := cout s |})
      | _ => None
      end
  | Lget_rvalue_val =>
      match v with
      | Vint z =>
          Some (tt, {| mem_global_var := mem_global_var s;
                       mem_get_rvalue_val := z;
                       stack := stack s; cout := cout s |})
      | _ => None
      end
  | Lstack n =>
      old ← stack s !! n;
      if decide (value_type old = value_type v)
      then Some (tt, {| mem_global_var := mem_global_var s;
                        mem_get_rvalue_val := mem_get_rvalue_val s;
                        stack := <[n := v]> (stack s); cout := cout s |})
      else None
  end.

(** A new automatic object, on top of the stack. *)
Definition alloc (v : value) : M loc := λ s,
  Some (Lstack (length (stack s)),
        {| mem_global_var := mem_global_var s;
           mem_get_rvalue_val := mem_get_rvalue_val s;
           stack := stack s ++ [v]; cout := cout s |}).

(** [std::cout << str] *)
Definition put (str : string) : M unit := λ s,
  Some (tt, {| mem_global_var := mem_global_var s;
               mem_get_rvalue_val := mem_get_rvalue_val s;
               stack := stack s; cout := cout s +:+ str |}).

(** A function call: the automatic objects the body creates die when it
    returns. *)
Definition call {A : Type} (body : M A) : M A := λ s,
  match body s with
  | Some (a, s') =>
      Some (a, {| mem_global_var := mem_global_var s';
                  mem_get_rvalue_val := mem_get_rvalue_val s';
                  stack := take (length (stack s)) (stack s');
                  cout := cout s' |})
  | None => None
  end.

(** ** Expressions *)

(** A declared variable: its declared type and the object it names. *)
Record var : Type := mkVar { v_type : cpp_type; v_loc : loc }.

(** What evaluating an expression gives: a glvalue designates an object, a
    prvalue computes a value. *)
Inductive result : Type :=
| Rloc (l : loc)
| Rval (v : value).

(** A function, once its arguments are fixed: its return type ([None] when
    the declaration is ill-formed) and its body, which ends in a [return]. *)
Record func : Type := mkFunc {
  f_return_type : option cpp_type;
  f_body : M result
}.

Inductive expr : Type :=
| Eid (x : var)              (* x, an unparenthesized identifier *)
| Eparen (e : expr)          (* (e) *)
| Eint (n : Z)               (* an integer literal *)
| Edouble (f : float)        (* a floating literal *)
| Ecall (f : func)           (* f(args) *)
| Emove (e : expr)           (* std::move(e) *)
| Eadd (e1 e2 : expr)        (* e1 + e2 *)
| Ebegin (e : expr)          (* e.begin() *)
| Ebraces (ns : list Z).     (* {n1, ..., nk} for a std::vector<int> *)

(** The usual arithmetic conversions, on the two arithmetic types here. *)
Definition arith_common (T U : obj_type) : option obj_type :=
  match T, U with
  | Tint, Tint => Some Tint
  | Tint, Tdouble | Tdouble, Tint | Tdouble, Tdouble => Some Tdouble
  | _, _ => None
  end.

(** The type of an expression, references removed; [None] when the
    expression is ill-formed. *)
Fixpoint type_of (e : expr) : option obj_type :=
  match e with
  | Eid x => Some (remove_reference (v_type x))
  | Eparen e => type_of e
  | Eint n => if in_int n then Some Tint else None
  | Edouble _ => Some Tdouble
  | Ecall f => remove_reference <$> f_return_type f
  | Emove e => type_of e
  | Eadd e1 e2 => T ← type_of e1; U ← type_of e2; arith_common T U
  | Ebegin e =>
      T ← type_of e;
      match T with Tvector_int => Some Tvector_int_iterator | _ => None end
  | Ebraces ns => if forallb in_int ns then Some Tvector_int else None
  end.

Fixpoint category (e : expr) : value_category :=
  match e with
  | Eid _ => lvalue
  | Eparen e => category e
  | Eint _ | Edouble _ => prvalue
  | Ecall f =>
      match f_return_type f with
      | Some (Tlref _) => lvalue
      | Some (Trref _) => xvalue
      | _ => prvalue
      end
  | Emove _ => xvalue
  | Eadd _ _ => prvalue
  | Ebegin _ => prvalue
  | Ebraces _ => prvalue
  end.

(** [decltype(e)], following the four rules the source file lists:
    rule 1, an unparenthesized identifier gives the declared type of the
    entity; rule 2, any other lvalue gives [T&]; rule 3, an xvalue gives
    [T&&]; rule 4, a prvalue gives [T]. *)
Definition decltype (e : expr) : option cpp_type :=
  match e with
  | Eid x => Some (v_type x)
  | _ =>
      T ← type_of e;
      Some (match category e with
            | lvalue => Tlref T
            | xvalue => Trref T
            | prvalue => Tval T
            end)
  end.

(** The type [auto] stands for in [auto x = e;] and in a function declared
    [auto f()] that returns [e]: the type of [e], never a reference. *)
Definition auto_type (e : expr) : option cpp_type := Tval <$> type_of e.

(** The type [decltype(auto)] stands for when the initializer is [e]. *)
Definition decltype_auto_type (e : expr) : option cpp_type := decltype e.

(** ** Evaluation *)

(** int to double, exact for every [int]. *)
Definition double_of_int (z : Z) : float :=
  if (z <? 0)%Z
  then PrimFloat.opp (PrimFloat.of_uint63 (Uint63.of_Z (- z)))
  else PrimFloat.of_uint63 (Uint63.of_Z z).

(** Implicit conversion of a value to the object type [T].  The program
    needs the identity and int to double; nothing else is in the fragment. *)
Definition convert (T : obj_type) (v : value) : M value :=
  match T, v with
  | Tdouble, Vint z => mret (Vdouble (double_of_int z))
  | _, _ => if decide (value_type v = T) then mret v else fail
  end.

(** [v1 + v2] after the usual arithmetic conversions.  Signed overflow is
    undefined behaviour: a failure. *)
Definition add_values (v1 v2 : value) : M value :=
  match v1, v2 with
  | Vint a, Vint b => if in_int (a + b) then mret (Vint (a + b)) else fail
  | Vint a, Vdouble y => mret (Vdouble (PrimFloat.add (double_of_int a) y))
  | Vdouble x, Vint b => mret (Vdouble (PrimFloat.add x (double_of_int b)))
  | Vdouble x, Vdouble y => mret (Vdouble (PrimFloat.add x y))
  | _, _ => fail
  end.

(** The object a glvalue designates, or a temporary holding the prvalue. *)
Definition materialize (r : result) : M loc :=
  match r with
  | Rloc l => mret l
  | Rval v => alloc v
  end.

(** Lvalue-to-rvalue conversion. *)
Definition to_value (r : result) : M value :=
  match r with
  | Rloc l => load l
  | Rval v => mret v
  end.

Fixpoint eval (e : expr) : M result :=
  match e with
  | Eid x => mret (Rloc (v_loc x))
  | Eparen e => eval e
  | Eint n => if in_int n then mret (Rval (Vint n)) else fail
  | Edouble f => mret (Rval (Vdouble f))
  | Ecall f => call (f_body f)
  | Emove e => r ← eval e; l ← materialize r; mret (Rloc l)
  | Eadd e1 e2 =>
      r1 ← eval e1; v1 ← to_value r1;
      r2 ← eval e2; v2 ← to_value r2;
      v ← add_values v1 v2;
      mret (Rval v)
  | Ebegin e =>
      r ← eval e;
      match r with
      | Rloc l =>
          v ← load l;
          match v with
          | Vvector _ => mret (Rval (Viterator l 0))
          | _ => fail
          end
      | Rval _ => fail
      end
  | Ebraces ns =>
      if forallb in_int ns then mret (Rval (Vvector ns)) else fail
  end.

(** The value of an expression. *)
Definition rvalue (e : expr) : M value := r ← eval e; to_value r.

(** Initializing an entity of type [t] from [init]: an object type copies
    the (converted) value; [T&] binds only to an lvalue of type [T]; [T&&]
    binds to an xvalue or to a prvalue of type [T], a prvalue being
    materialized first.  The result is what the entity designates or holds. *)
Definition initialize (t : cpp_type) (init : expr) : M result :=
  match t with
  | Tval T => v ← rvalue init; v' ← convert T v; mret (Rval v')
  | Tlref T =>
      if decide (category init = lvalue ∧ type_of init = Some T)
      then r ← eval init;
           match r with Rloc l => mret (Rloc l) | Rval _ => fail end
      else fail
  | Trref T =>
      if decide (category init ≠ lvalue ∧ type_of init = Some T)
      then r ← eval init; l ← materialize r; mret (Rloc l)
      else fail
  end.

(** [T x = init;] with [T] the type [t]: a variable of object type gets a
    new automatic object, a reference names the object it is bound to. *)
Definition decl (t : cpp_type) (init : expr) : M var :=
  r ← initialize t init;
  l ← materialize r;
  mret {| v_type := t; v_loc := l |}.

(** A declaration whose type is itself deduced; an ill-formed type is a
    failure. *)
Definition decl_deduced (t : option cpp_type) (init : expr) : M var :=
  match t with
  | Some t => decl t init
  | None => fail
  end.

(** [decltype(e) x = init;] *)
Definition decl_decltype (e init : expr) : M var :=
  decl_deduced (decltype e) init.

(** [auto x = init;] *)
Definition decl_auto (init : expr) : M var :=
  decl_deduced (auto_type init) init.

(** [decltype(auto) x = init;] *)
Definition decl_decltype_auto (init : expr) : M var :=
  decl_deduced (decltype_auto_type init) init.

(** [lhs = rhs;] on the arithmetic types. *)
Definition assign (lhs rhs : expr) : M unit :=
  match category lhs, type_of lhs with
  | lvalue, Some T =>
      v ← rvalue rhs;
      v' ← convert T v;
      r ← eval lhs;
      match r with
      | Rloc l => store l v'
      | Rval _ => fail
      end
  | _, _ => fail
  end.

(** [return e;] in a function whose return type is [rt]. *)
Definition return_ (rt : option cpp_type) (e : expr) : M result :=
  match rt with
  | Some t => initialize t e
  | None => fail
  end.

(** A function definition: the return type, and the body given that type. *)
Definition define (rt : option cpp_type) (body : option cpp_type → M result)
  : func :=
  {| f_return_type := rt; f_body := body rt |}.

(** A parameter named inside an unevaluated operand (a trailing return
    type): only its declared type is looked at. *)
Definition param (T : obj_type) : var :=
  {| v_type := Tval T; v_loc := Lstack 0 |}.

(** ** The translation unit *)

(** The newline character, written ['\n'] in the source. *)
Definition nl : string := String "010"%char "".

(** Failure of a compile-time computation is a failure of the program. *)
Definition lift_option {A : Type} (o : option A) : M A :=
  match o with
  | Some a => mret a
  | None => fail
  end.

(** A parameter [const T& var] binds to any expression of type [T], a
    prvalue being materialized; [const] is not tracked, nothing is written
    through such a parameter here. *)
Definition bind_const_ref (T : obj_type) (arg : expr) : M var :=
  if decide (type_of arg = Some T)
  then r ← eval arg; l ← materialize r;
       mret {| v_type := Tlref T; v_loc := l |}
  else fail.

(** The type [typeid(e)] refers to when [e] has a non-polymorphic type: the
    static type of [e], reference removed; [e] is not evaluated. *)
Definition typeid (e : expr) : option obj_type := type_of e.

(** int global_var = 10; *)
Definition global_var : var := {| v_type := Tval Tint; v_loc := Lglobal_var |}.

(** static int val = 42;  (local to get_rvalue) *)
Definition get_rvalue_val : var :=
  {| v_type := Tval Tint; v_loc := Lget_rvalue_val |}.

(** A [void] function: its body runs in a frame of its own. *)
Definition void_function {A : Type} (body : M A) : M unit :=
  call (body;; mret tt).

(** The state once [str] has been written to [std::cout]. *)
Definition emit (str : string) (s : state) : state :=
  {| mem_global_var := mem_global_var s;
     mem_get_rvalue_val := mem_get_rvalue_val s;
     stack := stack s; cout := cout s +:+ str |}.

(** The state once the automatic objects [ext] have been created on top of
    the stack and [str] has been written to [std::cout]. *)
Definition extend (ext : list value) (str : string) (s : state) : state :=
  {| mem_global_var := mem_global_var s;
     mem_get_rvalue_val := mem_get_rvalue_val s;
     stack := stack s ++ ext; cout := cout s +:+ str |}.

(** The state once [z] has been written to [global_var], and once it has
    been written to the static [val] of [get_rvalue]. *)
Definition set_global_var (z : Z) (s : state) : state :=
  {| mem_global_var := z;
     mem_get_rvalue_val := mem_get_rvalue_val s;
     stack := stack s; cout := cout s |}.

Definition set_get_rvalue_val (z : Z) (s : state) : state :=
  {| mem_global_var := mem_global_var s;
     mem_get_rvalue_val := z;
     stack := stack s; cout := cout s |}.

(** The slot a scope gets for its first automatic object when it starts in
    state [s], and the slot above it. *)
Abbreviation slot0 s := (Lstack (length (stack s))).
Abbreviation slot1 s := (Lstack (S (length (stack s)))).

(** The value of [e] in state [s], and its value once [m] has run. *)
Definition value_in (e : expr) (s : state) : option value :=
  fst <$> rvalue e s.

Definition value_after (m : M unit) (e : expr) (s : state) : option value :=
  fst <$> (m;; rvalue e) s.

(** Statements run one after the other. *)
Definition run_steps (steps : list (M unit)) : M unit :=
  foldr (λ step rest, step;; rest) (mret tt) steps.

(** The names [std::type_info::name()] gives under the Itanium C++ ABI. *)
Definition itanium_typeid_name (T : obj_type) : string :=
  match T with
  | Tint => "i"
  | Tdouble => "d"
  | Tvector_int => "St6vectorIiSaIiEE"
  | Tvector_int_iterator =>
      "N9__gnu_cxx17__normal_iteratorIPiSt6vectorIiSaIiEEEE"
  end.

Section Program.

(** [std::type_info::name()] is implementation-defined. *)
Variable typeid_name : obj_type → string.

(** template <typename T>
    void print_type(const T& var, const std::string& var_name) *)
Definition print_type (arg : expr) (var_name : string) : M unit :=
  T ← lift_option (type_of arg);
  void_function (
    var ← bind_const_ref T arg;
    name ← lift_option (typeid_name <$> typeid (Eid var));
    put var_name;; put " : ";; put name;; put nl).

(** The locals of [rule1], in declaration order, at the end of its body. *)
Definition rule1_scope : M (var * var) :=
  x ← decl (Tval Tint) (Eint 0);
  a ← decl_decltype (Eid x) (Eint 1);
  print_type (Eid a) "a";;
  mret (x, a).

Definition rule1 : M unit := void_function rule1_scope.

Definition rule2_scope : M (var * var) :=
  x ← decl (Tval Tint) (Eint 0);
  b ← decl_decltype (Eparen (Eid x)) (Eid x);
  print_type (Eid b) "b";;
  mret (x, b).

Definition rule2 : M unit := void_function rule2_scope.

(** int&& get_rvalue() *)
Definition get_rvalue : func :=
  define (Some (Trref Tint)) (λ R, return_ R (Emove (Eid get_rvalue_val))).

Definition rule3_scope : M var :=
  c ← decl_decltype (Ecall get_rvalue) (Ecall get_rvalue);
  print_type (Eid c) "c";;
  mret c.

Definition rule3 : M unit := void_function rule3_scope.

Definition rule4_scope : M var :=
  d ← decl_decltype (Eint 42) (Eint 42);
  print_type (Eid d) "d";;
  mret d.

Definition rule4 : M unit := void_function rule4_scope.

(** The instance [add<T, U>], called with [arg1] and [arg2]:
    auto add(T t, U u) -> decltype(t + u) { return t + u; } *)
Definition add_instance (T U : obj_type) (arg1 arg2 : expr) : func :=
  define (decltype (Eadd (Eid (param T)) (Eid (param U))))
    (λ R, t ← decl (Tval T) arg1;
          u ← decl (Tval U) arg2;
          return_ R (Eadd (Eid t) (Eid u))).

(** [add(arg1, arg2)]: [T] and [U] are deduced from the arguments. *)
Definition add (arg1 arg2 : expr) : func :=
  match type_of arg1, type_of arg2 with
  | Some T, Some U => add_instance T U arg1 arg2
  | _, _ => {| f_return_type := None; f_body := fail |}
  end.

Definition function_return_type_scope : M var :=
  sum ← decl_auto (Ecall (add (Eint 3) (Edouble 4.5)));
  print_type (Eid sum) "sum";;
  mret sum.

Definition function_return_type : M unit :=
  void_function function_return_type_scope.

Definition complex_types_scope : M (var * var) :=
  vec ← decl (Tval Tvector_int) (Ebraces [1; 2; 3]);
  it ← decl_decltype (Ebegin (Eid vec)) (Ebegin (Eid vec));
  print_type (Eid it) "it";;
  mret (vec, it).

Definition complex_types : M unit := void_function complex_types_scope.

(** int& get_ref() *)
Definition get_ref : func :=
  define (Some (Tlref Tint)) (λ R, return_ R (Eid global_var)).

(** auto get_auto() *)
Definition get_auto : func :=
  define (auto_type (Ecall get_ref)) (λ R, return_ R (Ecall get_ref)).

(** decltype(auto) get_decltype_auto() *)
Definition get_decltype_auto : func :=
  define (decltype_auto_type (Ecall get_ref)) (λ R, return_ R (Ecall get_ref)).

Definition decltype_auto_demo_scope : M (var * var) :=
  val ← decl_auto (Ecall get_auto);
  ref ← decl_decltype_auto (Ecall get_decltype_auto);
  print_type (Eid val) "val";;
  print_type (Eid ref) "ref";;
  mret (val, ref).

Definition decltype_auto_demo : M unit :=
  void_function decltype_auto_demo_scope.

Definition parentheses_effect_scope : M (var * var * var) :=
  x ← decl (Tval Tint) (Eint 0);
  a ← decl_decltype (Eid x) (Eint 1);
  b ← decl_decltype (Eparen (Eid x)) (Eid x);
  print_type (Eid a) "a";;
  print_type (Eid b) "b";;
  mret (x, a, b).

Definition parentheses_effect : M unit :=
  void_function parentheses_effect_scope.

(** int main() *)
Definition main : M Z :=
  call (
    put ("Rule 1:" +:+ nl);;
    rule1;;
    put (nl +:+ "Rule 2:" +:+ nl);;
    rule2;;
    put (nl +:+ "Rule 3:" +:+ nl);;
    rule3;;
    put (nl +:+ "Rule 4:" +:+ nl);;
    rule4;;
    put (nl +:+ "Function Return Type:" +:+ nl);;
    function_return_type;;
    put (nl +:+ "Complex Types:" +:+ nl);;
    complex_types;;
    put (nl +:+ "decltype(auto) Demo:" +:+ nl);;
    decltype_auto_demo;;
    put (nl +:+ "Parentheses Effect:" +:+ nl);;
    parentheses_effect;;
    mret 0).


(** The statements of [main] before [return 0;]. *)
Definition main_steps : list (M unit) :=
  [ put ("Rule 1:" +:+ nl); rule1;
    put (nl +:+ "Rule 2:" +:+ nl); rule2;
    put (nl +:+ "Rule 3:" +:+ nl); rule3;
    put (nl +:+ "Rule 4:" +:+ nl); rule4;
    put (nl +:+ "Function Return Type:" +:+ nl); function_return_type;
    put (nl +:+ "Complex Types:" +:+ nl); complex_types;
    put (nl +:+ "decltype(auto) Demo:" +:+ nl); decltype_auto_demo;
    put (nl +:+ "Parentheses Effect:" +:+ nl); parentheses_effect ].

(** The eight demonstrations, in the order [main] calls them. *)
Definition demonstrations : list (M unit) :=
  [ rule1; rule2; rule3; rule4; function_return_type; complex_types;
    decltype_auto_demo; parentheses_effect ].

(** The line [print_type] writes for a variable of type [T]. *)
Definition type_line (var_name : string) (T : obj_type) : string :=
  var_name +:+ " : " +:+ typeid_name T +:+ nl.

Definition type_lines (vars : list (string * obj_type)) : string :=
  foldr (λ v rest, type_line v.1 v.2 +:+ rest) "" vars.

(** The eight sections of the output: the label of each, and the variables
    whose type it reports. *)
Definition sections : list (string * list (string * obj_type)) :=
  [ ("Rule 1:", [("a", Tint)]);
    ("Rule 2:", [("b", Tint)]);
    ("Rule 3:", [("c", Tint)]);
    ("Rule 4:", [("d", Tint)]);
    ("Function Return Type:", [("sum", Tdouble)]);
    ("Complex Types:", [("it", Tvector_int_iterator)]);
    ("decltype(auto) Demo:", [("val", Tint); ("ref", Tint)]);
    ("Parentheses Effect:", [("a", Tint); ("b", Tint)]) ].

(** A section is its label on a line, then its lines; an empty line
    separates two sections. *)
Definition render_section (sec : string * list (string * obj_type)) : string :=
  sec.1 +:+ nl +:+ type_lines sec.2.

Fixpoint render_sections (secs : list (string * list (string * obj_type)))
  : string :=
  match secs with
  | [] => ""
  | [sec] => render_section sec
  | sec :: rest => render_section sec +:+ nl +:+ render_sections rest
  end.

(** A function that returns a reference to one of its own automatic
    objects: the reference dangles once the call has returned. *)
Definition returns_local : func :=
  define (Some (Tlref Tint))
    (λ R, x ← decl (Tval Tint) (Eint 0); return_ R (Eid x)).

(** A routine that writes to [std::cout] and leaves the memory as it found
    it. *)
Definition only_prints (m : M unit) : Prop :=
  ∀ s, ∃ str, m s = Some (tt, emit str s).

(** [x] and [b] name one object: a write through either is read through the
    other. *)
Definition aliases (x b : var) (s : state) (z : Z) : Prop :=
  v_loc b = v_loc x ∧
  value_after (assign (Eid b) (Eint z)) (Eid x) s = Some (Vint z) ∧
  value_after (assign (Eid b) (Eint z)) (Eid b) s = Some (Vint z) ∧
  value_after (assign (Eid x) (Eint z)) (Eid b) s = Some (Vint z).

(** [a] has an object of its own: a write through [a] leaves [x] at the
    value [vx] it had, and a write through [x] leaves [a] at [va]. *)
Definition independent (x a : var) (vx va : Z) (s : state) (z : Z) : Prop :=
  v_loc a ≠ v_loc x ∧
  value_in (Eid x) s = Some (Vint vx) ∧
  value_in (Eid a) s = Some (Vint va) ∧
  value_after (assign (Eid a) (Eint z)) (Eid x) s = Some (Vint vx) ∧
  value_after (assign (Eid a) (Eint z)) (Eid a) s = Some (Vint z) ∧
  value_after (assign (Eid x) (Eint z)) (Eid a) s = Some (Vint va).

(** ** Auxiliary facts: strings, the stack, running each scope *)

Lemma append_assoc (a b c : string) : (a +:+ b) +:+ c = a +:+ (b +:+ c).
Proof.
  induction a as [|ch a IH]; [reflexivity |].
  change (String ch ((a +:+ b) +:+ c) = String ch (a +:+ (b +:+ c))).
  f_equal. exact IH.
Qed.

Lemma append_empty_r (a : string) : a +:+ "" = a.
Proof.
  induction a as [|ch a IH]; [reflexivity |].
  change (String ch (a +:+ "") = String ch a). f_equal. exact IH.
Qed.

Lemma stack_app_app (st ext : list value) (v : value) :
  (st ++ ext) ++ [v] = st ++ (ext ++ [v]).
Proof. symmetry. apply app_assoc. Qed.

Lemma stack_length_add (st ext : list value) :
  length (st ++ ext) = (length ext + length st)%nat.
Proof. rewrite length_app. lia. Qed.

Lemma stack_lookup_add (st ext : list value) (k : nat) :
  (st ++ ext) !! (k + length st)%nat = ext !! k.
Proof. rewrite lookup_app_r by lia. f_equal. lia. Qed.

Lemma stack_lookup_0 (st ext : list value) :
  (st ++ ext) !! length st = ext !! 0%nat.
Proof. exact (stack_lookup_add st ext 0). Qed.

Lemma stack_lookup_1 (st ext : list value) :
  (st ++ ext) !! S (length st) = ext !! 1%nat.
Proof. exact (stack_lookup_add st ext 1). Qed.

Lemma stack_lookup_2 (st ext : list value) :
  (st ++ ext) !! S (S (length st)) = ext !! 2%nat.
Proof. exact (stack_lookup_add st ext 2). Qed.

Lemma stack_take_add (st ext : list value) (k : nat) :
  take (k + length st) (st ++ ext) = st ++ take k ext.
Proof. rewrite Nat.add_comm. apply take_app_add. Qed.

Lemma stack_take_0 (st ext : list value) :
  take (length st) (st ++ ext) = st.
Proof. apply take_app_length. Qed.

Lemma stack_take_1 (st ext : list value) :
  take (S (length st)) (st ++ ext) = st ++ take 1 ext.
Proof. exact (stack_take_add st ext 1). Qed.

Lemma stack_take_2 (st ext : list value) :
  take (S (S (length st))) (st ++ ext) = st ++ take 2 ext.
Proof. exact (stack_take_add st ext 2). Qed.

Lemma stack_insert_add (st ext : list value) (k : nat) (v : value) :
  <[(k + length st)%nat := v]> (st ++ ext) = st ++ <[k := v]> ext.
Proof. rewrite Nat.add_comm. apply insert_app_r. Qed.

Lemma stack_insert_0 (st ext : list value) (v : value) :
  <[length st := v]> (st ++ ext) = st ++ <[0%nat := v]> ext.
Proof. exact (stack_insert_add st ext 0 v). Qed.

Lemma stack_insert_1 (st ext : list value) (v : value) :
  <[S (length st) := v]> (st ++ ext) = st ++ <[1%nat := v]> ext.
Proof. exact (stack_insert_add st ext 1 v). Qed.

Lemma stack_take_self (st : list value) : take (length st) st = st.
Proof. apply firstn_all. Qed.

(** The one floating-point computation of the program, [3 + 4.5]: the
    [int] operand converts to [3.0] and the sum is rounded to binary64. *)
Lemma sum_3_4_5 : PrimFloat.add (double_of_int 3) 4.5%float = 7.5%float.
Proof. vm_compute. reflexivity. Qed.

(** The primitives that read or combine values, as equations. *)
Lemma load_unfold (l : loc) (g r : Z) (stk : list value) (out : string) :
  load l (mkState g r stk out) =
  match l with
  | Lglobal_var => Some (Vint g, mkState g r stk out)
  | Lget_rvalue_val => Some (Vint r, mkState g r stk out)
  | Lstack n => v ← stk !! n; Some (v, mkState g r stk out)
  end.
Proof. reflexivity. Qed.

Lemma store_stack_unfold (n : nat) (v : value) (g r : Z) (stk : list value)
    (out : string) :
  store (Lstack n) v (mkState g r stk out) =
  (old ← stk !! n;
   if decide (value_type old = value_type v)
   then Some (tt, mkState g r (<[n := v]> stk) out)
   else None).
Proof. reflexivity. Qed.

Lemma store_global_var_int (z g r : Z) (stk : list value) (out : string) :
  store Lglobal_var (Vint z) (mkState g r stk out) =
  Some (tt, mkState z r stk out).
Proof. reflexivity. Qed.

Lemma add_values_int_double (a : Z) (y : float) :
  add_values (Vint a) (Vdouble y) =
  mret (Vdouble (PrimFloat.add (double_of_int a) y)).
Proof. reflexivity. Qed.

(** Symbolic execution from an arbitrary state: compute up to the next
    read or write of the memory, leaving the operations on the unknown part
    of the stack and of the output alone; resolve that access with the
    lemmas above; go on. *)
Ltac run_with keep :=
  keep;
  rewrite ?load_unfold, ?store_stack_unfold, ?store_global_var_int,
    ?add_values_int_double, ?sum_3_4_5;
  rewrite ?stack_app_app, ?stack_length_add;
  cbn [length app Nat.add];
  rewrite ?stack_lookup_0, ?stack_lookup_1, ?stack_lookup_2,
    ?stack_take_0, ?stack_take_1, ?stack_take_2, ?stack_take_self,
    ?stack_insert_0, ?stack_insert_1, ?app_nil_r;
  cbn [lookup list_lookup take app insert list_insert].

Ltac run :=
  repeat progress
    run_with ltac:(cbv -[length app take lookup insert String.append nl
                         double_of_int PrimFloat.add load store add_values]).

Ltac run_scope :=
  let g := fresh "g" in let r := fresh "r" in
  let st := fresh "st" in let out := fresh "out" in
  intros [g r st out]; run; rewrite ?append_assoc; reflexivity.

Lemma void_function_run {A : Type} (body : M A) (s : state) (a : A)
    (ext : list value) (str : string) :
  body s = Some (a, extend ext str s) →
  void_function body s = Some (tt, emit str s).
Proof.
  intros Hbody. unfold void_function, call. cbv [mbind M_bind].
  rewrite Hbody. destruct s as [g r st out]. run. reflexivity.
Qed.

Lemma rule1_scope_run : ∀ s,
  rule1_scope s =
  Some (mkVar (Tval Tint) (slot0 s), mkVar (Tval Tint) (slot1 s),
        extend [Vint 0; Vint 1] (type_line "a" Tint) s).
Proof. run_scope. Qed.

Lemma rule2_scope_run : ∀ s,
  rule2_scope s =
  Some (mkVar (Tval Tint) (slot0 s), mkVar (Tlref Tint) (slot0 s),
        extend [Vint 0] (type_line "b" Tint) s).
Proof. run_scope. Qed.

Lemma rule3_scope_run : ∀ s,
  rule3_scope s =
  Some (mkVar (Trref Tint) Lget_rvalue_val, extend [] (type_line "c" Tint) s).
Proof. run_scope. Qed.

Lemma rule4_scope_run : ∀ s,
  rule4_scope s =
  Some (mkVar (Tval Tint) (slot0 s), extend [Vint 42] (type_line "d" Tint) s).
Proof. run_scope. Qed.

Lemma function_return_type_scope_run : ∀ s,
  function_return_type_scope s =
  Some (mkVar (Tval Tdouble) (slot0 s),
        extend [Vdouble 7.5] (type_line "sum" Tdouble) s).
Proof. run_scope. Qed.

Lemma complex_types_scope_run : ∀ s,
  complex_types_scope s =
  Some (mkVar (Tval Tvector_int) (slot0 s),
        mkVar (Tval Tvector_int_iterator) (slot1 s),
        extend [Vvector [1; 2; 3]; Viterator (slot0 s) 0]
          (type_line "it" Tvector_int_iterator) s).
Proof. run_scope. Qed.

Lemma decltype_auto_demo_scope_run : ∀ s,
  decltype_auto_demo_scope s =
  Some (mkVar (Tval Tint) (slot0 s), mkVar (Tlref Tint) Lglobal_var,
        extend [Vint (mem_global_var s)]
          (type_line "val" Tint +:+ type_line "ref" Tint) s).
Proof. run_scope. Qed.

Lemma parentheses_effect_scope_run : ∀ s,
  parentheses_effect_scope s =
  Some (mkVar (Tval Tint) (slot0 s), mkVar (Tval Tint) (slot1 s),
        mkVar (Tlref Tint) (slot0 s),
        extend [Vint 0; Vint 1]
          (type_line "a" Tint +:+ type_line "b" Tint) s).
Proof. run_scope. Qed.

Lemma rule1_run (s : state) :
  rule1 s = Some (tt, emit (type_line "a" Tint) s).
Proof. eapply void_function_run, rule1_scope_run. Qed.

Lemma rule2_run (s : state) :
  rule2 s = Some (tt, emit (type_line "b" Tint) s).
Proof. eapply void_function_run, rule2_scope_run. Qed.

Lemma rule3_run (s : state) :
  rule3 s = Some (tt, emit (type_line "c" Tint) s).
Proof. eapply void_function_run, rule3_scope_run. Qed.

Lemma rule4_run (s : state) :
  rule4 s = Some (tt, emit (type_line "d" Tint) s).
Proof. eapply void_function_run, rule4_scope_run. Qed.

Lemma function_return_type_run (s : state) :
  function_return_type s = Some (tt, emit (type_line "sum" Tdouble) s).
Proof. eapply void_function_run, function_return_type_scope_run. Qed.

Lemma complex_types_run (s : state) :
  complex_types s =
  Some (tt, emit (type_line "it" Tvector_int_iterator) s).
Proof. eapply void_function_run, complex_types_scope_run. Qed.

Lemma decltype_auto_demo_run (s : state) :
  decltype_auto_demo s =
  Some (tt, emit (type_line "val" Tint +:+ type_line "ref" Tint) s).
Proof. eapply void_function_run, decltype_auto_demo_scope_run. Qed.

Lemma parentheses_effect_run (s : state) :
  parentheses_effect s =
  Some (tt, emit (type_line "a" Tint +:+ type_line "b" Tint) s).
Proof. eapply void_function_run, parentheses_effect_scope_run. Qed.

Lemma put_run (str : string) (s : state) : put str s = Some (tt, emit str s).
Proof. reflexivity. Qed.

Lemma emit_emit (a b : string) (s : state) :
  emit b (emit a s) = emit (a +:+ b) s.
Proof. unfold emit. simpl. now rewrite append_assoc. Qed.

Ltac run_main :=
  repeat progress
    (first [ rewrite put_run | rewrite rule1_run | rewrite rule2_run
           | rewrite rule3_run | rewrite rule4_run
           | rewrite function_return_type_run | rewrite complex_types_run
           | rewrite decltype_auto_demo_run | rewrite parentheses_effect_run ];
     cbv beta iota).

Lemma main_run (s : state) :
  main s = Some (0, emit (render_sections sections) s).
Proof.
  unfold main, call. cbv [mbind M_bind mret M_ret]. run_main.
  rewrite !emit_emit. destruct s as [g r st out].
  cbv [emit stack cout mem_global_var mem_get_rvalue_val].
  rewrite stack_take_self.
  cbv [render_sections sections render_section type_lines type_line foldr
       fst snd].
  rewrite !append_assoc, ?append_empty_r. reflexivity.
Qed.

Lemma only_prints_intro (m : M unit) (str : string) :
  (∀ s, m s = Some (tt, emit str s)) → only_prints m.
Proof. intros Hm s. exists str. apply Hm. Qed.

Lemma demonstrations_only_print : Forall only_prints demonstrations.
Proof.
  unfold demonstrations.
  constructor; [exact (only_prints_intro _ _ rule1_run) |].
  constructor; [exact (only_prints_intro _ _ rule2_run) |].
  constructor; [exact (only_prints_intro _ _ rule3_run) |].
  constructor; [exact (only_prints_intro _ _ rule4_run) |].
  constructor;
    [exact (only_prints_intro _ _ function_return_type_run) |].
  constructor; [exact (only_prints_intro _ _ complex_types_run) |].
  constructor; [exact (only_prints_intro _ _ decltype_auto_demo_run) |].
  constructor; [exact (only_prints_intro _ _ parentheses_effect_run) |].
  constructor.
Qed.

Lemma emit_empty (s : state) : emit "" s = s.
Proof.
  destruct s as [g r st out]. unfold emit. simpl.
  now rewrite append_empty_r.
Qed.

Lemma run_steps_only_print (steps : list (M unit)) :
  Forall only_prints steps → only_prints (run_steps steps).
Proof.
  induction 1 as [| step steps Hstep _ IH]; intros s.
  - exists "". simpl. now rewrite emit_empty.
  - destruct (Hstep s) as [str1 H1].
    destruct (IH (emit str1 s)) as [str2 H2].
    exists (str1 +:+ str2). simpl. cbv [mbind M_bind].
    rewrite H1, H2, emit_emit. reflexivity.
Qed.

Lemma main_steps_only_print : Forall only_prints main_steps.
Proof.
  pose proof demonstrations_only_print as Hd. unfold demonstrations in Hd.
  unfold main_steps.
  repeat match goal with
         | H : Forall _ (_ :: _) |- _ => inversion_clear H
         end.
  repeat (constructor;
          [first [assumption | exact (only_prints_intro _ _ (put_run _))] |]).
  constructor.
Qed.

(** Every prefix of the statements of [main] only prints. *)
Lemma main_prefix_only_prints (k : nat) :
  only_prints (run_steps (take k main_steps)).
Proof.
  apply run_steps_only_print, Forall_take, main_steps_only_print.
Qed.

Lemma main_steps_run (s : state) :
  run_steps main_steps s = Some (tt, emit (render_sections sections) s).
Proof.
  unfold run_steps, main_steps, foldr. cbv [mbind M_bind mret M_ret].
  run_main. rewrite !emit_emit. destruct s as [g r st out].
  cbv [emit stack cout mem_global_var mem_get_rvalue_val
       render_sections sections render_section type_lines type_line foldr
       fst snd].
  rewrite !append_assoc, ?append_empty_r. reflexivity.
Qed.

(** [main] is its statements in order, then [return 0;]. *)
Lemma main_is_its_steps (s : state) :
  main s = call (run_steps main_steps;; mret 0) s.
Proof.
  rewrite main_run. unfold call. cbv [mbind M_bind mret M_ret].
  rewrite main_steps_run. destruct s as [g r st out].
  cbv [emit stack cout mem_global_var mem_get_rvalue_val].
  now rewrite stack_take_self.
Qed.

Ltac run_sym H :=
  repeat progress
    (run_with ltac:(cbv -[length app take lookup insert String.append nl
                          double_of_int PrimFloat.add load store add_values
                          in_int]);
     rewrite ?H).

(** ** What the model rejects

    The failure branches are live: an ill-formed binding, a read through a
    dangling reference and a signed overflow all fail. *)

Example lvalue_reference_rejects_prvalue :
  decl (Tlref Tint) (Eint 42) initial_state = None.
Proof. reflexivity. Qed.

Example rvalue_reference_rejects_lvalue :
  (x ← decl (Tval Tint) (Eint 0); decl (Trref Tint) (Eid x)) initial_state
  = None.
Proof. reflexivity. Qed.

Example dangling_read_fails :
  eval (Ecall returns_local) initial_state =
    Some (Rloc (Lstack 0), initial_state) ∧
  rvalue (Ecall returns_local) initial_state = None.
Proof. split; reflexivity. Qed.

Example signed_overflow_fails :
  add_values (Vint int_max) (Vint 1) initial_state = None.
Proof. reflexivity. Qed.

Example begin_needs_a_vector :
  (x ← decl (Tval Tint) (Eint 0); eval (Ebegin (Eid x))) initial_state = None.
Proof. reflexivity. Qed.

(** The trailing return type of [add] names the parameters [t] and [u] in
    an unevaluated operand: it is the type of [t + u] whatever objects the
    parameters get. *)
Lemma add_return_type_of_parameters (T U : obj_type) (arg1 arg2 : expr)
    (t u : var) :
  v_type t = Tval T → v_type u = Tval U →
  f_return_type (add_instance T U arg1 arg2) = decltype (Eadd (Eid t) (Eid u)).
Proof.
  intros Ht Hu. unfold add_instance, define, decltype. simpl.
  rewrite Ht, Hu. reflexivity.
Qed.

(** ** Properties of the demonstrations *)

(** C5.  In [rule4], [decltype(42)] is the plain type [int]: the literal is
    a prvalue of type [int], the binding [d] is declared with that type, is
    no reference, and holds 42 once initialized. *)
Theorem prvalue_binding_is_int_42 (s : state) :
  category (Eint 42) = prvalue ∧
  type_of (Eint 42) = Some Tint ∧
  decltype (Eint 42) = Some (Tval Tint) ∧
  ∃ d s',
    rule4_scope s = Some (d, s') ∧
    v_type d = Tval Tint ∧
    is_reference (v_type d) = false ∧
    value_in (Eid d) s' = Some (Vint 42).
Proof.
  split; [reflexivity |]. split; [reflexivity |]. split; [reflexivity |].
  eexists _, _. split; [apply rule4_scope_run |].
  split; [reflexivity |]. split; [reflexivity |].
  destruct s as [g r st out]. unfold value_in. run. reflexivity.
Qed.

(** C6.  In [rule3], [get_rvalue()] is an xvalue, so [decltype] gives
    [int&&] and [c] is an rvalue reference; in [rule2], [(x)] is an lvalue,
    so [decltype] gives [int&] and [b] is an lvalue reference; the two types
    differ. *)
Theorem xvalue_binding_is_rvalue_reference (s : state) :
  category (Ecall get_rvalue) = xvalue ∧
  decltype (Ecall get_rvalue) = Some (Trref Tint) ∧
  ∃ c s3 x b s2,
    rule3_scope s = Some (c, s3) ∧
    rule2_scope s = Some ((x, b), s2) ∧
    v_type c = Trref Tint ∧
    category (Eparen (Eid x)) = lvalue ∧
    decltype (Eparen (Eid x)) = Some (Tlref Tint) ∧
    v_type b = Tlref Tint ∧
    v_type c ≠ v_type b.
Proof.
  split; [reflexivity |]. split; [reflexivity |].
  eexists _, _, _, _, _.
  split; [apply rule3_scope_run |]. split; [apply rule2_scope_run |].
  split; [reflexivity |]. split; [reflexivity |]. split; [reflexivity |].
  split; [reflexivity |]. discriminate.
Qed.

(** C3.  In [add(3, 4.5)] the template arguments are deduced as [int] and
    [double]; the return type [decltype(t + u)] is [double]; the call returns
    the binary64 number 7.5, which is 15 * 2^49 * 2^-50, the exact sum; and
    [sum] in [function_return_type] is a [double] holding it. *)
Theorem add_3_4_5_is_double_7_5 (s : state) :
  type_of (Eint 3) = Some Tint ∧
  type_of (Edouble 4.5) = Some Tdouble ∧
  arith_common Tint Tdouble = Some Tdouble ∧
  f_return_type (add (Eint 3) (Edouble 4.5)) = Some (Tval Tdouble) ∧
  eval (Ecall (add (Eint 3) (Edouble 4.5))) s = Some (Rval (Vdouble 7.5), s) ∧
  Prim2SF 7.5 = S754_finite false (15 * 2 ^ 49) (-50) ∧
  ∃ sum s',
    function_return_type_scope s = Some (sum, s') ∧
    v_type sum = Tval Tdouble ∧
    value_in (Eid sum) s' = Some (Vdouble 7.5).
Proof.
  split; [reflexivity |]. split; [reflexivity |]. split; [reflexivity |].
  split; [reflexivity |]. split; [| split].
  - destruct s as [g r st out]. run. reflexivity.
  - vm_compute. reflexivity.
  - eexists _, _. split; [apply function_return_type_scope_run |].
    split; [reflexivity |].
    destruct s as [g r st out]. unfold value_in. run. reflexivity.
Qed.

(** C7.  From any state, [main] returns 0 and writes the eight sections, in
    the order of the eight demonstrations and each under its label, every
    section being what its demonstration writes; the text written and the
    exit status are the same in any two runs. *)
Theorem main_prints_eight_sections :
  (∀ s, main s = Some (0, emit (render_sections sections) s)) ∧
  length sections = 8%nat ∧
  sections.*1 =
    [ "Rule 1:"; "Rule 2:"; "Rule 3:"; "Rule 4:"; "Function Return Type:";
      "Complex Types:"; "decltype(auto) Demo:"; "Parentheses Effect:" ] ∧
  Forall2 (λ demo sec, ∀ s, demo s = Some (tt, emit (type_lines sec.2) s))
    demonstrations sections ∧
  (∀ s1 s2, ∃ text,
     main s1 = Some (0, emit text s1) ∧ main s2 = Some (0, emit text s2)).
Proof.
  split; [exact main_run |].
  split; [reflexivity |]. split; [reflexivity |]. split.
  - unfold demonstrations, sections.
    repeat (constructor;
            [intros s; cbv [type_lines foldr fst snd];
             rewrite ?append_empty_r |]).
    + exact (rule1_run s).
    + exact (rule2_run s).
    + exact (rule3_run s).
    + exact (rule4_run s).
    + exact (function_return_type_run s).
    + exact (complex_types_run s).
    + exact (decltype_auto_demo_run s).
    + exact (parentheses_effect_run s).
    + constructor.
  - intros s1 s2. eexists. split; apply main_run.
Qed.

(** C8.  Nothing fails: from any state every demonstration returns, and so
    does [main]; in [complex_types], [vec.begin()] is taken on the vector
    {1, 2, 3}, which is not empty, and [it] designates its first element. *)
Theorem program_is_total (s : state) :
  Forall (λ demo, is_Some (demo s)) demonstrations ∧
  is_Some (main s) ∧
  ∃ vec it s',
    complex_types_scope s = Some ((vec, it), s') ∧
    load (v_loc vec) s' = Some (Vvector [1; 2; 3], s') ∧
    load (v_loc it) s' = Some (Viterator (v_loc vec) 0, s') ∧
    (0 < length [1; 2; 3])%nat.
Proof.
  split; [| split].
  - eapply Forall_impl; [apply demonstrations_only_print |].
    intros demo Hdemo. destruct (Hdemo s) as [str ->]. eauto.
  - rewrite main_run. eauto.
  - eexists _, _, _. split; [apply complex_types_scope_run |].
    destruct s as [g r st out]. split; [| split].
    + run. reflexivity.
    + run. reflexivity.
    + simpl. lia.
Qed.

(** C1.  In [rule2] and in [parentheses_effect], [decltype((x))] is [int&]
    and [b] names the object of [x], which holds 0: after [b = 1], [x] is 1,
    and for every [int] z a write of z through either name is read through
    the other. *)
Theorem parenthesized_binding_is_alias (s : state) (z : Z)
    (Hz : in_int z = true) :
  (∃ x b s',
     rule2_scope s = Some ((x, b), s') ∧
     decltype (Eparen (Eid x)) = Some (Tlref Tint) ∧
     v_type b = Tlref Tint ∧
     value_in (Eid x) s' = Some (Vint 0) ∧
     value_after (assign (Eid b) (Eint 1)) (Eid x) s' = Some (Vint 1) ∧
     aliases x b s' z) ∧
  (∃ x a b s',
     parentheses_effect_scope s = Some ((x, a, b), s') ∧
     decltype (Eparen (Eid x)) = Some (Tlref Tint) ∧
     v_type b = Tlref Tint ∧
     value_in (Eid x) s' = Some (Vint 0) ∧
     value_after (assign (Eid b) (Eint 1)) (Eid x) s' = Some (Vint 1) ∧
     aliases x b s' z).
Proof.
  destruct s as [g r st out]. split.
  - eexists _, _, _. split; [apply rule2_scope_run |].
    split; [reflexivity |]. split; [reflexivity |].
    unfold aliases, value_in, value_after.
    split; [run; reflexivity |]. split; [run; reflexivity |].
    split; [reflexivity |].
    split; [| split]; run_sym Hz; reflexivity.
  - eexists _, _, _, _. split; [apply parentheses_effect_scope_run |].
    split; [reflexivity |]. split; [reflexivity |].
    unfold aliases, value_in, value_after.
    split; [run; reflexivity |]. split; [run; reflexivity |].
    split; [reflexivity |].
    split; [| split]; run_sym Hz; reflexivity.
Qed.

(** C4.  In [rule1] and in [parentheses_effect], [decltype(x)] is the
    declared type of [x], [int], so [a] is an [int] and no reference; [a] has
    an object of its own: assigning to [a] leaves [x] at 0 (and assigning to
    [x] leaves [a] at 1). *)
Theorem bare_identifier_binding_is_copy (s : state) (z : Z)
    (Hz : in_int z = true) :
  (∃ x a s',
     rule1_scope s = Some ((x, a), s') ∧
     v_type x = Tval Tint ∧
     decltype (Eid x) = Some (v_type x) ∧
     v_type a = v_type x ∧
     is_reference (v_type a) = false ∧
     independent x a 0 1 s' z) ∧
  (∃ x a b s',
     parentheses_effect_scope s = Some ((x, a, b), s') ∧
     v_type x = Tval Tint ∧
     decltype (Eid x) = Some (v_type x) ∧
     v_type a = v_type x ∧
     is_reference (v_type a) = false ∧
     independent x a 0 1 s' z).
Proof.
  destruct s as [g r st out]. split.
  - eexists _, _, _. split; [apply rule1_scope_run |].
    split; [reflexivity |]. split; [reflexivity |].
    split; [reflexivity |]. split; [reflexivity |].
    unfold independent, value_in, value_after.
    split; [simpl; intros [= Heq]; lia |].
    split; [run; reflexivity |]. split; [run; reflexivity |].
    split; [| split]; run_sym Hz; reflexivity.
  - eexists _, _, _, _. split; [apply parentheses_effect_scope_run |].
    split; [reflexivity |]. split; [reflexivity |].
    split; [reflexivity |]. split; [reflexivity |].
    unfold independent, value_in, value_after.
    split; [simpl; intros [= Heq]; lia |].
    split; [run; reflexivity |]. split; [run; reflexivity |].
    split; [| split]; run_sym Hz; reflexivity.
Qed.

(** C2.  [get_auto] returns [int]: a call gives the value of [global_var],
    and [val] holds a copy, which keeps its value when [global_var] is
    assigned afterwards.  [get_decltype_auto] returns [int&]: a call
    designates [global_var] itself, [ref] names it, and reading [ref] after
    [global_var = z] gives z. *)
Theorem decltype_auto_copy_vs_alias (s : state) (z : Z)
    (Hz : in_int z = true) :
  f_return_type get_auto = Some (Tval Tint) ∧
  f_return_type get_decltype_auto = Some (Tlref Tint) ∧
  eval (Ecall get_auto) s = Some (Rval (Vint (mem_global_var s)), s) ∧
  eval (Ecall get_decltype_auto) s = Some (Rloc (v_loc global_var), s) ∧
  ∃ val ref s',
    decltype_auto_demo_scope s = Some ((val, ref), s') ∧
    v_type val = Tval Tint ∧
    v_type ref = Tlref Tint ∧
    v_loc val ≠ v_loc global_var ∧
    v_loc ref = v_loc global_var ∧
    value_in (Eid val) s' = Some (Vint (mem_global_var s)) ∧
    value_after (assign (Eid global_var) (Eint z)) (Eid val) s' =
      Some (Vint (mem_global_var s)) ∧
    value_after (assign (Eid global_var) (Eint z)) (Eid ref) s' =
      Some (Vint z).
Proof.
  destruct s as [g r st out].
  split; [reflexivity |]. split; [reflexivity |].
  split; [run; reflexivity |]. split; [run; reflexivity |].
  eexists _, _, _. split; [apply decltype_auto_demo_scope_run |].
  split; [reflexivity |]. split; [reflexivity |].
  split; [discriminate |]. split; [reflexivity |].
  unfold value_in, value_after.
  split; [run; reflexivity |].
  split; run_sym Hz; reflexivity.
Qed.

(** C9.  [global_var] is initialized to 10 and no statement of the program
    writes it.  From a state where it holds 10: it still holds 10 after any
    prefix of the statements of [main], after [main] and after each
    demonstration; [get_ref()], [get_auto()] and [get_decltype_auto()] each
    give 10 and leave the state as it is; [val] and [ref] in
    [decltype_auto_demo] both read 10. *)
Theorem global_var_never_written (s : state) (Hg : mem_global_var s = 10) :
  mem_global_var initial_state = 10 ∧
  (∀ k, ∃ s', run_steps (take k main_steps) s = Some (tt, s') ∧
              mem_global_var s' = 10) ∧
  main s = call (run_steps main_steps;; mret 0) s ∧
  (∃ s', main s = Some (0, s') ∧ mem_global_var s' = 10) ∧
  Forall (λ demo, ∃ s', demo s = Some (tt, s') ∧ mem_global_var s' = 10)
    demonstrations ∧
  eval (Ecall get_ref) s = Some (Rloc (v_loc global_var), s) ∧
  value_in (Ecall get_ref) s = Some (Vint 10) ∧
  eval (Ecall get_auto) s = Some (Rval (Vint 10), s) ∧
  eval (Ecall get_decltype_auto) s = Some (Rloc (v_loc global_var), s) ∧
  value_in (Ecall get_decltype_auto) s = Some (Vint 10) ∧
  ∃ val ref s',
    decltype_auto_demo_scope s = Some ((val, ref), s') ∧
    value_in (Eid val) s' = Some (Vint 10) ∧
    value_in (Eid ref) s' = Some (Vint 10).
Proof.
  split; [reflexivity |]. split.
  { intros k. destruct (main_prefix_only_prints k s) as [str Hk].
    eexists. split; [exact Hk | exact Hg]. }
  split; [apply main_is_its_steps |]. split.
  { eexists. split; [apply main_run | exact Hg]. }
  split.
  { eapply Forall_impl; [apply demonstrations_only_print |].
    intros demo Hdemo. destruct (Hdemo s) as [str Hstr].
    eexists. split; [exact Hstr | exact Hg]. }
  destruct s as [g r st out]. simpl in Hg. subst g.
  unfold value_in.
  split; [run; reflexivity |]. split; [run; reflexivity |].
  split; [run; reflexivity |]. split; [run; reflexivity |].
  split; [run; reflexivity |].
  eexists _, _, _. split; [apply decltype_auto_demo_scope_run |].
  split; run; reflexivity.
Qed.

(** C10.  [get_rvalue] returns [int&&]; from any state a call designates the
    one static [val] and changes nothing.  [val] is initialized to 42 and no
    statement of the program writes it: from a state where it holds 42, it
    still does after any prefix of the statements of [main] and after
    [main], and [c] in [rule3] names it and reads 42. *)
Theorem get_rvalue_static_is_42 (s : state)
    (Hv : mem_get_rvalue_val s = 42) :
  mem_get_rvalue_val initial_state = 42 ∧
  f_return_type get_rvalue = Some (Trref Tint) ∧
  category (Ecall get_rvalue) = xvalue ∧
  (∀ s0, eval (Ecall get_rvalue) s0 =
         Some (Rloc (v_loc get_rvalue_val), s0)) ∧
  value_in (Ecall get_rvalue) s = Some (Vint 42) ∧
  (∃ c s',
     rule3_scope s = Some (c, s') ∧
     v_type c = Trref Tint ∧
     v_loc c = v_loc get_rvalue_val ∧
     value_in (Eid c) s' = Some (Vint 42)) ∧
  (∀ k, ∃ s', run_steps (take k main_steps) s = Some (tt, s') ∧
              mem_get_rvalue_val s' = 42) ∧
  (∃ s', main s = Some (0, s') ∧ mem_get_rvalue_val s' = 42).
Proof.
  split; [reflexivity |]. split; [reflexivity |]. split; [reflexivity |].
  split; [intros [g0 r0 st0 out0]; run; reflexivity |].
  split; [| split; [| split]].
  - destruct s as [g r st out]. simpl in Hv. subst r.
    unfold value_in. run. reflexivity.
  - eexists _, _. split; [apply rule3_scope_run |].
    split; [reflexivity |]. split; [reflexivity |].
    destruct s as [g r st out]. simpl in Hv. subst r.
    unfold value_in. run. reflexivity.
  - intros k. destruct (main_prefix_only_prints k s) as [str Hk].
    eexists. split; [exact Hk | exact Hv].
  - eexists. split; [apply main_run | exact Hv].
Qed.

(** ** Further properties of the functions *)

Lemma store_get_rvalue_val_int (z g r : Z) (stk : list value) (out : string) :
  store Lget_rvalue_val (Vint z) (mkState g r stk out) =
  Some (tt, mkState g z stk out).
Proof. reflexivity. Qed.

Lemma add_values_int_int (a b : Z) :
  add_values (Vint a) (Vint b) =
  if in_int (a + b) then mret (Vint (a + b)) else fail.
Proof. reflexivity. Qed.

Lemma add_values_double_int (x : float) (b : Z) :
  add_values (Vdouble x) (Vint b) =
  mret (Vdouble (PrimFloat.add x (double_of_int b))).
Proof. reflexivity. Qed.

Lemma add_values_double_double (x y : float) :
  add_values (Vdouble x) (Vdouble y) = mret (Vdouble (PrimFloat.add x y)).
Proof. reflexivity. Qed.

(** Symbolic execution with unknown [int]s: the range checks and the sums
    stay as they are written, and the hypotheses on them are used. *)
Ltac run_ints :=
  repeat progress
    (run_with ltac:(cbv -[length app take lookup insert String.append nl
                          double_of_int PrimFloat.add load store add_values
                          in_int Z.add]);
     rewrite ?store_get_rvalue_val_int, ?add_values_int_int,
       ?add_values_double_int, ?add_values_double_double;
     repeat match goal with
            | H : in_int _ = _ |- _ => rewrite H
            end).

(** [print_type] called on a variable, whatever its declared type, and
    whether or not the object it names is still alive: the object is not
    read. *)
Lemma print_type_id_run (x : var) (var_name : string) (s : state) :
  print_type (Eid x) var_name s =
  Some (tt, emit (type_line var_name (remove_reference (v_type x))) s).
Proof.
  destruct x as [[[]|[]|[]] l]; destruct s as [g r st out];
    run; rewrite ?append_assoc; reflexivity.
Qed.

(** X1.  [print_type] does not show whether a variable is a reference: for
    two variables whose types differ at most by [&] or [&&], it writes the
    same line, the name followed by the [typeid] name of the type without
    reference, and leaves the memory as it is. *)
Theorem print_type_ignores_reference (x y : var) (var_name : string)
    (s : state) :
  remove_reference (v_type x) = remove_reference (v_type y) →
  print_type (Eid x) var_name s =
    Some (tt, emit (type_line var_name (remove_reference (v_type x))) s) ∧
  print_type (Eid y) var_name s = print_type (Eid x) var_name s.
Proof.
  intros Hxy. rewrite !print_type_id_run, Hxy. split; reflexivity.
Qed.

(** X2.  [print_type] called on any well-typed expression whose evaluation
    leaves the state as it is (a literal, say): the parameter [var] is bound
    to a temporary, one line is written with the type of the expression, and
    the temporary is gone when the call returns. *)
Theorem print_type_of_pure_expression (e : expr) (T : obj_type) (r : result)
    (var_name : string) (s : state) :
  type_of e = Some T →
  eval e s = Some (r, s) →
  print_type e var_name s = Some (tt, emit (type_line var_name T) s).
Proof.
  intros Hty Hev. unfold print_type. cbv [mbind M_bind]. rewrite Hty.
  cbn [lift_option]. cbv [mret M_ret].
  unfold void_function, call, bind_const_ref. cbv [mbind M_bind].
  rewrite decide_True by exact Hty. rewrite Hev.
  destruct r as [l | v]; destruct s as [g r0 st out];
    run; rewrite ?append_assoc; reflexivity.
Qed.


(** X4.  [add] called on two [int] literals whose sum is an [int]: [T] and
    [U] are deduced as [int], the result is the [int] a + b, and the state
    after the call is the state before it (the parameters are gone). *)
Theorem add_of_ints (a b : Z) (s : state) :
  in_int a = true → in_int b = true → in_int (a + b) = true →
  f_return_type (add (Eint a) (Eint b)) = Some (Tval Tint) ∧
  eval (Ecall (add (Eint a) (Eint b))) s = Some (Rval (Vint (a + b)), s).
Proof.
  intros Ha Hb Hab. split.
  - unfold add. cbn [type_of]. rewrite Ha, Hb. reflexivity.
  - cbn [eval]. unfold add. cbn [type_of]. rewrite Ha, Hb.
    destruct s as [g r st out]. run_ints. reflexivity.
Qed.

(** X5.  [add] called on an [int] and a [double], in either order: the
    result is a [double], the binary64 sum of the converted [int] and the
    [double], and the state after the call is the state before it. *)
Theorem add_of_int_and_double (a : Z) (y : float) (s : state) :
  in_int a = true →
  f_return_type (add (Eint a) (Edouble y)) = Some (Tval Tdouble) ∧
  eval (Ecall (add (Eint a) (Edouble y))) s =
    Some (Rval (Vdouble (PrimFloat.add (double_of_int a) y)), s) ∧
  f_return_type (add (Edouble y) (Eint a)) = Some (Tval Tdouble) ∧
  eval (Ecall (add (Edouble y) (Eint a))) s =
    Some (Rval (Vdouble (PrimFloat.add y (double_of_int a))), s).
Proof.
  intros Ha. split; [| split; [| split]].
  - unfold add. cbn [type_of]. rewrite Ha. reflexivity.
  - cbn [eval]. unfold add. cbn [type_of]. rewrite Ha.
    destruct s as [g r st out]. run_ints. reflexivity.
  - unfold add. cbn [type_of]. rewrite Ha. reflexivity.
  - cbn [eval]. unfold add. cbn [type_of]. rewrite Ha.
    destruct s as [g r st out]. run_ints. reflexivity.
Qed.

(** X6.  What the three getters return can be told apart by writing:
    [get_ref() = z] and [get_decltype_auto() = z] write z to [global_var]
    and change nothing else; [get_auto() = z] is ill-formed, and [int&]
    cannot be bound to [get_auto()], while it can be bound to
    [get_decltype_auto()] and then names [global_var]. *)
Theorem returned_reference_is_assignable (z : Z) (s : state) :
  in_int z = true →
  assign (Ecall get_ref) (Eint z) s = Some (tt, set_global_var z s) ∧
  assign (Ecall get_decltype_auto) (Eint z) s =
    Some (tt, set_global_var z s) ∧
  assign (Ecall get_auto) (Eint z) s = None ∧
  decl (Tlref Tint) (Ecall get_auto) s = None ∧
  decl (Tlref Tint) (Ecall get_decltype_auto) s =
    Some (mkVar (Tlref Tint) (v_loc global_var), s).
Proof.
  intros Hz. destruct s as [g r st out].
  split; [run_ints; reflexivity |]. split; [run_ints; reflexivity |].
  split; [reflexivity |]. split; [reflexivity |].
  run_ints. reflexivity.
Qed.

(** X7.  The handle [get_rvalue()] returns cannot be bound to [int&];
    copying from it ([int v = get_rvalue();]) gives [v] the value of the
    static [val] and leaves [val] as it is; a write through [c] of [rule3]
    goes to [val], so the next call of [get_rvalue] reads it. *)
Theorem get_rvalue_binds_and_persists (z : Z) (s : state) :
  in_int z = true →
  decl (Tlref Tint) (Ecall get_rvalue) s = None ∧
  (∃ v s',
     decl (Tval Tint) (Ecall get_rvalue) s = Some (v, s') ∧
     v_loc v ≠ v_loc get_rvalue_val ∧
     mem_get_rvalue_val s' = mem_get_rvalue_val s ∧
     value_in (Eid v) s' = Some (Vint (mem_get_rvalue_val s))) ∧
  (∃ c s',
     rule3_scope s = Some (c, s') ∧
     assign (Eid c) (Eint z) s' = Some (tt, set_get_rvalue_val z s') ∧
     value_after (assign (Eid c) (Eint z)) (Ecall get_rvalue) s' =
       Some (Vint z)).
Proof.
  intros Hz. split; [reflexivity |]. split.
  - destruct s as [g r st out]. eexists _, _. split; [run; reflexivity |].
    split; [discriminate |]. split; [reflexivity |].
    unfold value_in. run. reflexivity.
  - eexists _, _. split; [apply rule3_scope_run |].
    destruct s as [g r st out]. unfold value_after.
    split; run_ints; reflexivity.
Qed.

End Program.

(** ** The properties at the initial state, with the Itanium names *)

(** What a run prints when [typeid(...).name()] gives the Itanium names. *)
Example main_itanium :
  main itanium_typeid_name initial_state =
  Some (0, emit
    ("Rule 1:" +:+ nl +:+ "a : i" +:+ nl +:+ nl +:+
     "Rule 2:" +:+ nl +:+ "b : i" +:+ nl +:+ nl +:+
     "Rule 3:" +:+ nl +:+ "c : i" +:+ nl +:+ nl +:+
     "Rule 4:" +:+ nl +:+ "d : i" +:+ nl +:+ nl +:+
     "Function Return Type:" +:+ nl +:+ "sum : d" +:+ nl +:+ nl +:+
     "Complex Types:" +:+ nl +:+
     "it : N9__gnu_cxx17__normal_iteratorIPiSt6vectorIiSaIiEEEE" +:+ nl +:+
     nl +:+
     "decltype(auto) Demo:" +:+ nl +:+ "val : i" +:+ nl +:+ "ref : i" +:+ nl +:+
     nl +:+
     "Parentheses Effect:" +:+ nl +:+ "a : i" +:+ nl +:+ "b : i" +:+ nl)
    initial_state).
Proof. vm_compute. reflexivity. Qed.

Lemma parenthesized_binding_is_alias_witness :
  in_int 1 = true ∧
  ∃ x b s',
    rule2_scope itanium_typeid_name initial_state = Some ((x, b), s') ∧
    value_in (Eid x) s' = Some (Vint 0) ∧
    aliases x b s' 1.
Proof.
  split; [reflexivity |].
  destruct (parenthesized_binding_is_alias itanium_typeid_name
              initial_state 1 eq_refl)
    as [(x & b & s' & Hrun & _ & _ & Hx & _ & Halias) _].
  exists x, b, s'. split; [exact Hrun |]. split; [exact Hx | exact Halias].
Defined.

Lemma bare_identifier_binding_is_copy_witness :
  in_int 7 = true ∧
  ∃ x a s',
    rule1_scope itanium_typeid_name initial_state = Some ((x, a), s') ∧
    v_type a = Tval Tint ∧
    independent x a 0 1 s' 7.
Proof.
  split; [reflexivity |].
  destruct (bare_identifier_binding_is_copy itanium_typeid_name
              initial_state 7 eq_refl)
    as [(x & a & s' & Hrun & Hx & _ & Ha & _ & Hind) _].
  exists x, a, s'. split; [exact Hrun |].
  split; [now rewrite Ha | exact Hind].
Defined.

Lemma decltype_auto_copy_vs_alias_witness :
  in_int 11 = true ∧
  ∃ val ref s',
    decltype_auto_demo_scope itanium_typeid_name initial_state =
      Some ((val, ref), s') ∧
    value_after (assign (Eid global_var) (Eint 11)) (Eid val) s' =
      Some (Vint 10) ∧
    value_after (assign (Eid global_var) (Eint 11)) (Eid ref) s' =
      Some (Vint 11).
Proof.
  split; [reflexivity |].
  destruct (decltype_auto_copy_vs_alias itanium_typeid_name
              initial_state 11 eq_refl)
    as (_ & _ & _ & _ & val & ref & s' & Hrun & _ & _ & _ & _ & _ & Hval &
        Href).
  exists val, ref, s'. split; [exact Hrun |]. split; [exact Hval | exact Href].
Defined.

Lemma global_var_never_written_witness :
  mem_global_var initial_state = 10 ∧
  ∃ s', main itanium_typeid_name initial_state = Some (0, s') ∧
        mem_global_var s' = 10.
Proof.
  split; [reflexivity |].
  destruct (global_var_never_written itanium_typeid_name initial_state
              eq_refl)
    as (_ & _ & _ & Hmain & _).
  exact Hmain.
Defined.

Lemma get_rvalue_static_is_42_witness :
  mem_get_rvalue_val initial_state = 42 ∧
  ∃ c s', rule3_scope itanium_typeid_name initial_state = Some (c, s') ∧
          v_type c = Trref Tint ∧
          v_loc c = v_loc get_rvalue_val ∧
          value_in (Eid c) s' = Some (Vint 42).
Proof.
  split; [reflexivity |].
  destruct (get_rvalue_static_is_42 itanium_typeid_name initial_state
              eq_refl)
    as (_ & _ & _ & _ & _ & Hc & _).
  exact Hc.
Defined.

Lemma print_type_ignores_reference_witness :
  remove_reference (Tval Tint) = remove_reference (Tlref Tint) ∧
  print_type itanium_typeid_name (Eid (mkVar (Tlref Tint) Lglobal_var)) "b"
    initial_state =
  print_type itanium_typeid_name (Eid (mkVar (Tval Tint) (Lstack 0))) "b"
    initial_state.
Proof.
  split; [reflexivity |].
  exact (proj2 (print_type_ignores_reference itanium_typeid_name
                  (mkVar (Tval Tint) (Lstack 0))
                  (mkVar (Tlref Tint) Lglobal_var) "b" initial_state
                  eq_refl)).
Defined.

Lemma print_type_of_pure_expression_witness :
  type_of (Eint 42) = Some Tint ∧
  eval (Eint 42) initial_state = Some (Rval (Vint 42), initial_state) ∧
  print_type itanium_typeid_name (Eint 42) "d" initial_state =
  Some (tt, emit (type_line itanium_typeid_name "d" Tint) initial_state).
Proof.
  split; [reflexivity |]. split; [reflexivity |].
  exact (print_type_of_pure_expression itanium_typeid_name (Eint 42) Tint
           (Rval (Vint 42)) "d" initial_state eq_refl eq_refl).
Defined.

Lemma add_of_ints_witness :
  in_int 3 = true ∧ in_int 4 = true ∧ in_int (3 + 4) = true ∧
  eval (Ecall (add (Eint 3) (Eint 4))) initial_state =
  Some (Rval (Vint 7), initial_state).
Proof.
  split; [reflexivity |]. split; [reflexivity |]. split; [reflexivity |].
  exact (proj2 (add_of_ints 3 4 initial_state eq_refl eq_refl eq_refl)).
Defined.

Lemma add_of_int_and_double_witness :
  in_int 3 = true ∧
  f_return_type (add (Edouble 4.5) (Eint 3)) = Some (Tval Tdouble) ∧
  eval (Ecall (add (Edouble 4.5) (Eint 3))) initial_state =
  Some (Rval (Vdouble (PrimFloat.add 4.5 (double_of_int 3))), initial_state).
Proof.
  split; [reflexivity |].
  exact (proj2 (proj2 (add_of_int_and_double 3 4.5 initial_state eq_refl))).
Defined.

Lemma returned_reference_is_assignable_witness :
  in_int 5 = true ∧
  assign (Ecall get_ref) (Eint 5) initial_state =
  Some (tt, set_global_var 5 initial_state).
Proof.
  split; [reflexivity |].
  exact (proj1 (returned_reference_is_assignable 5 initial_state eq_refl)).
Defined.

Lemma get_rvalue_binds_and_persists_witness :
  in_int 7 = true ∧
  ∃ c s',
    rule3_scope itanium_typeid_name initial_state = Some (c, s') ∧
    assign (Eid c) (Eint 7) s' = Some (tt, set_get_rvalue_val 7 s') ∧
    value_after (assign (Eid c) (Eint 7)) (Ecall get_rvalue) s' =
      Some (Vint 7).
Proof.
  split; [reflexivity |].
  exact (proj2 (proj2 (get_rvalue_binds_and_persists itanium_typeid_name 7
                         initial_state eq_refl))).
Defined.
